(** * The typing notebook: a shallow embedding of its snippets

    The notebook "The Typing package and usages" is a sequence of small
    Python snippets.  Type annotations are not enforced when Python runs,
    so the snippets that branch on the run-time type, return [None], read
    attributes or index a frame are embedded over a dynamic value type,
    with exceptions as an explicit outcome and objects in a store. *)

From Stdlib Require Import ZArith String List DecimalString.
From Stdlib Require Import Floats.PrimFloat.
From Stdlib Require DecimalPos DecimalZ.
From Stdlib Require Floats.FloatAxioms Floats.FloatOps Floats.SpecFloat.
From stdpp Require Import base option list gmap strings.

Local Open Scope string_scope.
Local Set Warnings "-register-all".

(** ** Python values *)

(** Objects are referred to by their position in the store. *)
Definition loc := nat.

(** The values the snippets handle.  [int] is unbounded, [float] is the
    IEEE 754 binary64 type, a list is kept by value (no snippet updates a
    list in place) and an instance of a notebook class is a reference.
    A [str] is the sequence of its code points, one [ascii] for each (not
    one for each byte of an encoding): the texts covered are those whose
    code points are below 256. *)
Inductive value : Type :=
  | VNone
  | VBool (b : bool)
  | VInt (n : Z)
  | VFloat (x : float)
  | VStr (s : string)
  | VList (items : list value)
  | VRef (l : loc).

(** The run-time classes of these values. *)
Inductive pytype : Type :=
  | TNoneType | TBool | TInt | TFloat | TStr | TList | TObject.

Definition type_of (v : value) : pytype :=
  match v with
  | VNone => TNoneType
  | VBool _ => TBool
  | VInt _ => TInt
  | VFloat _ => TFloat
  | VStr _ => TStr
  | VList _ => TList
  | VRef _ => TObject
  end.

Definition pytype_eqb (s t : pytype) : bool :=
  match s, t with
  | TNoneType, TNoneType | TBool, TBool | TInt, TInt | TFloat, TFloat
  | TStr, TStr | TList, TList | TObject, TObject => true
  | _, _ => false
  end.

(** [bool] is a subclass of [int]; the notebook's own classes derive from
    [object] only. *)
Definition issubclass (s t : pytype) : bool :=
  match s, t with
  | TBool, TInt => true
  | _, _ => pytype_eqb s t
  end.

Definition isinstance (v : value) (t : pytype) : bool :=
  issubclass (type_of v) t.

(** Truth value testing, as [if x:] does it. *)
Definition truthy (v : value) : bool :=
  match v with
  | VNone => false
  | VBool b => b
  | VInt n => negb (n =? 0)%Z
  | VFloat x => negb (PrimFloat.eqb x PrimFloat.zero)
  | VStr s => negb (String.eqb s "")
  | VList items => match items with [] => false | _ :: _ => true end
  | VRef _ => true
  end.

(** ** Exceptions *)

Inductive exn : Type :=
  | KeyError | TypeError | AttributeError | ValueError.

Inductive outcome (A : Type) : Type :=
  | Returns (a : A)
  | Raises (e : exn).
Arguments Returns {A} a.
Arguments Raises {A} e.

Definition returns_normally {A} (o : outcome A) : Prop :=
  ∃ a, o = Returns a.

#[global] Instance outcome_ret : MRet outcome := λ A a, Returns a.

#[global] Instance outcome_bind : MBind outcome := λ A B f o,
  match o with
  | Returns a => f a
  | Raises e => Raises e
  end.

(** ** Formatting inside f-strings *)

(** The text of a float, a list or an object ([repr] digits, nested
    quoting, a memory address) is not fixed here: it is whatever the
    interpreter prints, or the exception it raises on the way (a list
    that holds an over-long [int]). *)
Class Formatter : Type := opaque_text : value → outcome string.

Definition decimal (n : Z) : string :=
  NilZero.string_of_int (Z.to_int n).

(** The interpreter of the notebook (Python 3.11) converts an [int] to
    decimal text only up to [sys.get_int_max_str_digits()] digits, 4300
    unless it is set otherwise, which the notebook does not do. *)
Definition int_max_str_digits : Z := 4300.

(** [str(n)]: [ValueError] for an [int] of more than 4300 digits, the
    sign not counted, that is, of absolute value [10 ** 4300] or more. *)
Definition str_int (n : Z) : outcome string :=
  if (10 ^ int_max_str_digits <=? Z.abs n)%Z then Raises ValueError
  else Returns (decimal n).

(** [f"{v}"]: [format(v, "")], which is [str(v)] for the built-in types. *)
Definition format `{Formatter} (v : value) : outcome string :=
  match v with
  | VNone => Returns "None"
  | VBool true => Returns "True"
  | VBool false => Returns "False"
  | VInt n => str_int n
  | VStr s => Returns s
  | VFloat _ | VList _ | VRef _ => opaque_text v
  end.

(** ** Dictionaries *)

(** [d.get(key, default)]; the default of [default] is [None]. *)
Definition dict_get {K} `{Countable K}
    (d : gmap K value) (key : K) (default : value) : value :=
  match d !! key with
  | Some v => v
  | None => default
  end.

(** ** Functions of the first cells *)

Definition add (a b : Z) : Z := (a + b)%Z.

Definition greet (name : string) : string := "Hello, " +:+ name +:+ "!".

Definition get_user_id (username : string) : value :=
  let users : gmap string value := {[ "Alice" := VInt 1; "Bob" := VInt 2 ]} in
  dict_get users username VNone.

Section process.
Context `{Formatter}.

Definition process (v : value) : outcome value :=
  if isinstance v TInt then
    text ← format v;
    mret (VStr ("Processing number " +:+ text))
  else if isinstance v TStr then
    text ← format v;
    mret (VStr ("Processing string '" +:+ text +:+ "'"))
  else mret VNone.
End process.

(** [UserID] is [int] when the program runs: [UserID(1)] is [1]. *)
Definition UserID (n : Z) : Z := n.

Definition get_user_name (user_id : Z) : value :=
  let users : gmap Z value :=
    {[ UserID 1 := VStr "Alice"; UserID 2 := VStr "Bob" ]} in
  dict_get users user_id (VStr "Unknown").

(** ** The object store *)

(** An instance carries its class name and its attribute dictionary
    ([__dict__]). *)
Record object : Type := Object {
  obj_class : string;
  obj_dict : gmap string value
}.

(** The store: the objects allocated so far, and the log of attribute
    assignments, newest last. *)
Record state : Type := State {
  heap : list object;
  writes : list (loc * string)
}.

(** A computation runs on a store and either returns or raises. *)
Definition M (A : Type) : Type := state → outcome A * state.

#[global] Instance M_ret : MRet M := λ A a σ, (Returns a, σ).

#[global] Instance M_bind : MBind M := λ A B f m σ,
  match m σ with
  | (Returns a, σ') => f a σ'
  | (Raises e, σ') => (Raises e, σ')
  end.

Definition lift {A} (o : outcome A) : M A := λ σ, (o, σ).

(** Creating the bare instance, before [__init__] runs. *)
Definition alloc (cls : string) : M value := λ σ,
  (Returns (VRef (length (heap σ))),
   State (heap σ ++ [Object cls ∅]) (writes σ)).

(** [v.name].  None of the built-in values has one of the attributes the
    notebook reads ([name], [age], [nickname], [students], [content]). *)
Definition getattr (v : value) (name : string) : M value := λ σ,
  match v with
  | VRef l =>
      match heap σ !! l with
      | Some o =>
          match obj_dict o !! name with
          | Some x => (Returns x, σ)
          | None => (Raises AttributeError, σ)
          end
      | None => (Raises AttributeError, σ)
      end
  | _ => (Raises AttributeError, σ)
  end.

(** [v.name = x]. *)
Definition setattr (v : value) (name : string) (x : value) : M unit := λ σ,
  match v with
  | VRef l =>
      match heap σ !! l with
      | Some o =>
          (Returns (),
           State (<[l := Object (obj_class o) (<[name := x]> (obj_dict o))]> (heap σ))
                 (writes σ ++ [(l, name)]))
      | None => (Raises AttributeError, σ)
      end
  | _ => (Raises AttributeError, σ)
  end.

(** [len(v)]: the number of items of a list, of code points of a
    [str]. *)
Definition len (v : value) : outcome Z :=
  match v with
  | VStr s => Returns (Z.of_nat (String.length s))
  | VList items => Returns (Z.of_nat (length items))
  | _ => Raises TypeError
  end.

(** The items [for x in v] visits: the elements of a list, the
    one-character strings of a string. *)
Definition iter (v : value) : outcome (list value) :=
  match v with
  | VStr s => Returns ((λ c, VStr (String c "")) <$> list_ascii_of_string s)
  | VList items => Returns items
  | _ => Raises TypeError
  end.

(** ** The classes *)

Module Person.
Definition __init__ (self name age : value) : M unit :=
  setattr self "name" name;;
  setattr self "age" age.

(** The call [Person(name, age)]. *)
Definition new (name age : value) : M value :=
  self ← alloc "Person";
  __init__ self name age;;
  mret self.

Section methods.
Context `{Formatter}.

(** The fields of an f-string are evaluated and formatted one after the
    other, from left to right. *)
Definition introduce (self : value) : M value :=
  name ← getattr self "name";
  name_text ← lift (format name);
  age ← getattr self "age";
  age_text ← lift (format age);
  mret (VStr ("My name is " +:+ name_text +:+ ", and I am "
              +:+ age_text +:+ " years old.")).
End methods.
End Person.

Module Classroom.
Definition __init__ (self students : value) : M unit :=
  setattr self "students" students.

Definition new (students : value) : M value :=
  self ← alloc "Classroom";
  __init__ self students;;
  mret self.

Definition get_student_names (self : value) : M value :=
  students ← getattr self "students";
  items ← lift (iter students);
  names ← mapM (λ student, getattr student "name") items;
  mret (VList names).
End Classroom.

Module PersonWithNickname.
Definition __init__ (self name age nickname : value) : M unit :=
  setattr self "name" name;;
  setattr self "age" age;;
  setattr self "nickname" nickname.

(** [nickname] is [None] when the caller leaves it out. *)
Definition new (name age nickname : value) : M value :=
  self ← alloc "PersonWithNickname";
  __init__ self name age nickname;;
  mret self.

Section methods.
Context `{Formatter}.

Definition introduce (self : value) : M value :=
  nickname ← getattr self "nickname";
  if truthy nickname then
    name ← getattr self "name";
    name_text ← lift (format name);
    nickname ← getattr self "nickname";
    nickname_text ← lift (format nickname);
    mret (VStr ("My name is " +:+ name_text +:+ ", but you can call me "
                +:+ nickname_text +:+ "."))
  else
    name ← getattr self "name";
    name_text ← lift (format name);
    age ← getattr self "age";
    age_text ← lift (format age);
    mret (VStr ("My name is " +:+ name_text +:+ ", and I am "
                +:+ age_text +:+ " years old.")).
End methods.
End PersonWithNickname.

Module Box.
Definition __init__ (self content : value) : M unit :=
  setattr self "content" content.

Definition new (content : value) : M value :=
  self ← alloc "Box";
  __init__ self content;;
  mret self.

Definition get_content (self : value) : M value :=
  getattr self "content".
End Box.

Module School.
Definition __init__ (self students : value) : M unit :=
  setattr self "students" students.

Definition new (students : value) : M value :=
  self ← alloc "School";
  __init__ self students;;
  mret self.

Definition get_total_students (self : value) : M value :=
  students ← getattr self "students";
  n ← lift (len students);
  mret (VInt n).
End School.

(** ** Frames *)

(** [filter_data] is one expression over three operations of pandas:
    [df['value']], the comparison of a column with a number, and the
    selection of rows by a boolean mask.  They are embedded here as pandas
    documents them, on frames of the columns [read_csv] makes: int64
    numbers, float64 numbers, or text. *)

(** The integers an int64 column holds. *)
Definition in_int64 (n : Z) : bool :=
  (- 2 ^ 63 <=? n)%Z && (n <? 2 ^ 63)%Z.

Record int64 : Type := Int64 {
  int64_Z : Z;
  int64_range : Is_true (in_int64 int64_Z)
}.

(** The float64 number an integer becomes when numpy converts a column,
    as the cast [(double)n] of C does: the nearest float64, the one with
    the even mantissa when two are as near. *)
Definition to_float64 (n : Z) : float :=
  Corelib.Floats.FloatOps.SF2Prim
    (Corelib.Floats.SpecFloat.binary_normalize
       Corelib.Floats.FloatOps.prec Corelib.Floats.FloatOps.emax n 0 false).

(** A cell holds an int64 number, a float64 number (a missing entry is
    NaN) or text.  A column without text is a numeric column: numpy
    compares an int64 column with a float after converting it to float64,
    and pandas keeps the integers of a column that also has missing or
    fractional entries as float64 from the start. *)
Inductive cell : Type :=
  | CInt (n : int64)
  | CFloat (x : float)
  | CText (s : string).

(** A row: its index label and its entries by column label. *)
Record row : Type := Row {
  row_label : Z;
  row_cells : gmap string cell
}.

(** A frame: its column labels, unique as [read_csv] makes them, and its
    rows in order.  An entry a row does not give is missing. *)
Record DataFrame : Type := Frame {
  df_columns : gset string;
  df_rows : list row
}.

Definition entry (key : string) (r : row) : cell :=
  match row_cells r !! key with
  | Some c => c
  | None => CFloat PrimFloat.nan
  end.

(** [df[key]] with a column label: the column's entries in row order, on
    the frame's own index. *)
Definition getitem_column (df : DataFrame) (key : string) : outcome (list cell) :=
  if decide (key ∈ df_columns df) then Returns (entry key <$> df_rows df)
  else Raises KeyError.

(** [c > threshold] for one entry: IEEE comparison for a number (false on
    NaN), an integer being converted to float64 first; [TypeError]
    between text and a float. *)
Definition cell_gt (threshold : float) (c : cell) : outcome bool :=
  match c with
  | CInt n => Returns (PrimFloat.ltb threshold (to_float64 (int64_Z n)))
  | CFloat x => Returns (PrimFloat.ltb threshold x)
  | CText _ => Raises TypeError
  end.

(** [column > threshold].  Against a NaN threshold pandas compares
    nothing and answers false for every entry, text or not; otherwise
    the entries are compared one by one. *)
Definition series_gt (column : list cell) (threshold : float) : outcome (list bool) :=
  if PrimFloat.is_nan threshold then Returns ((λ _, false) <$> column)
  else mapM (cell_gt threshold) column.

(** The rows a boolean mask keeps. *)
Fixpoint select (rows : list row) (mask : list bool) : list row :=
  match rows, mask with
  | r :: rows', b :: mask' =>
      if b then r :: select rows' mask' else select rows' mask'
  | _, _ => []
  end.

(** [df[mask]] with a boolean mask on the frame's index; a mask of
    another length is refused. *)
Definition getitem_mask (df : DataFrame) (mask : list bool) : outcome DataFrame :=
  if decide (length mask = length (df_rows df)) then
    Returns (Frame (df_columns df) (select (df_rows df) mask))
  else Raises ValueError.

Definition filter_data (df : DataFrame) (threshold : float) : outcome DataFrame :=
  column ← getitem_column df "value";
  mask ← series_gt column threshold;
  getitem_mask df mask.

(** What the properties of [filter_data] are stated with: the entry
    under ['value'] is a number that, as a float64, is above the
    threshold, and the column under a label holds numbers only. *)
Definition above (threshold : float) (r : row) : bool :=
  match entry "value" r with
  | CInt n => PrimFloat.ltb threshold (to_float64 (int64_Z n))
  | CFloat x => PrimFloat.ltb threshold x
  | CText _ => false
  end.

Definition is_number (c : cell) : bool :=
  match c with
  | CInt _ | CFloat _ => true
  | CText _ => false
  end.

Definition numeric_column (df : DataFrame) (key : string) : bool :=
  forallb (λ r, is_number (entry key r)) (df_rows df).

(** ** Notions the properties are stated with *)

(** A computation that leaves the store as it found it, whatever it
    returns or raises. *)
Definition readonly {A} (m : M A) : Prop :=
  ∀ σ, (m σ).2 = σ.

(** The store once a constructor has run on [σ]: one more object, of class
    [cls] with the attribute dictionary [attrs], at the next free
    position, the objects of [σ] as they were, and one assignment logged
    for each name of [names], in this order. *)
Definition constructed (σ : state) (cls : string)
    (attrs : gmap string value) (names : list string) : state :=
  State (heap σ ++ [Object cls attrs])
        (writes σ ++ ((λ name, (length (heap σ), name)) <$> names)).

(** The two sentences of [introduce], once the attributes are read:
    each field is formatted in turn, and the first that cannot be
    formatted decides the exception. *)
Definition plain_sentence `{Formatter} (name age : value) : outcome value :=
  name_text ← format name;
  age_text ← format age;
  mret (VStr ("My name is " +:+ name_text +:+ ", and I am "
              +:+ age_text +:+ " years old.")).

Definition nickname_sentence `{Formatter} (name nickname : value) : outcome value :=
  name_text ← format name;
  nickname_text ← format nickname;
  mret (VStr ("My name is " +:+ name_text +:+ ", but you can call me "
              +:+ nickname_text +:+ ".")).

(** The expression [PersonWithNickname(name, age, nickname).introduce()]. *)
Definition introduce_new `{Formatter} (name age nickname : value) : M value :=
  p ← PersonWithNickname.new name age nickname;
  PersonWithNickname.introduce p.

(** The expression [Box(content).get_content()]. *)
Definition unbox_new (content : value) : M value :=
  box ← Box.new content;
  Box.get_content box.

(** Frames to run [filter_data] on: one with numbers under ['value'], one
    without a ['value'] column, one with text under ['value']. *)
Definition sample_frame : DataFrame :=
  Frame {[ "name"; "value" ]}
    [ Row 0 {[ "name" := CText "a"; "value" := CFloat 5 ]};
      Row 1 {[ "name" := CText "b"; "value" := CFloat 12.5 ]};
      Row 2 {[ "name" := CText "c" ]};
      Row 3 {[ "name" := CText "d"; "value" := CFloat 20 ]} ].

Definition frame_without_value : DataFrame :=
  Frame {[ "name" ]} [ Row 0 {[ "name" := CText "a" ]} ].

Definition frame_with_text_value : DataFrame :=
  Frame {[ "value" ]} [ Row 0 {[ "value" := CText "ten" ]} ].

(** An int64 column: 7, 15, and [2 ** 53 + 1], which is no float64. *)
Definition frame_with_int_value : DataFrame :=
  Frame {[ "value" ]}
    [ Row 0 {[ "value" := CInt (Int64 7 I) ]};
      Row 1 {[ "value" := CInt (Int64 15 I) ]};
      Row 2 {[ "value" := CInt (Int64 9007199254740993 I) ]} ].

(** A formatter to run the snippets with: every float, list and object
    prints as the same placeholder. *)
Definition placeholder_formatter : Formatter := λ _, Returns "<...>".

(** ** Splitting a frame *)

(** [df.drop(columns=[key])]: the frame without that column; the label
    has to be there. *)
Definition drop_column (df : DataFrame) (key : string) : outcome DataFrame :=
  if decide (key ∈ df_columns df) then
    Returns (Frame (df_columns df ∖ {[ key ]})
               ((λ r, Row (row_label r) (delete key (row_cells r))) <$> df_rows df))
  else Raises KeyError.

Section split_data.
(** [train_test_split(X, y, test_size=0.2, random_state=42)] belongs to
    scikit-learn: which rows it draws for the test set is the library's
    business, and it is a parameter here. *)
Context {Split : Type}.
Context (train_test_split : DataFrame → list cell → outcome Split).

Definition split_data (df : DataFrame) (target_column : string) : outcome Split :=
  X ← drop_column df target_column;
  y ← getitem_column df target_column;
  train_test_split X y.
End split_data.

(** ** Expressions that build objects and use them *)

(** The expression [Person(name, age).introduce()]. *)
Definition introduce_person `{Formatter} (name age : value) : M value :=
  p ← Person.new name age;
  Person.introduce p.

(** The list display [[Person(n1, a1), ..., Person(nk, ak)]]: the
    persons are created from left to right. *)
Definition new_people (people : list (value * value)) : M (list value) :=
  mapM (λ person, Person.new person.1 person.2) people.

(** The expression
    [Classroom([Person(n1, a1), ..., Person(nk, ak)]).get_student_names()]. *)
Definition roster_names (people : list (value * value)) : M value :=
  students ← new_people people;
  classroom ← Classroom.new (VList students);
  Classroom.get_student_names classroom.

(** The expression [Classroom(students).get_student_names()]. *)
Definition class_names (students : value) : M value :=
  classroom ← Classroom.new students;
  Classroom.get_student_names classroom.

(** The expression [School(students).get_total_students()]. *)
Definition head_count (students : value) : M value :=
  school ← School.new students;
  School.get_total_students school.

(** The values that have no length and cannot be iterated over: [None],
    a [bool], an [int], a [float], an instance of a notebook class. *)
Definition unsized (v : value) : bool :=
  match v with
  | VNone | VBool _ | VInt _ | VFloat _ | VRef _ => true
  | VStr _ | VList _ => false
  end.

(** The object a [Person(name, age)] call leaves in the store. *)
Definition person_object (person : value * value) : object :=
  Object "Person" (<["age" := person.2]> (<["name" := person.1]> ∅)).

(** * Properties *)

(** ** Plain functions *)

(** C3. For all integers [a] and [b], [add a b] is their sum [a + b],
    with no wrap-around; on the literals 2 and 3 it returns the literal 5. *)
Theorem add_returns_sum (a b : Z) :
  add a b = (a + b)%Z ∧ add 2 3 = 5%Z.
Proof. split; reflexivity. Qed.

Lemma add_comm (a b : Z) : add a b = add b a.
Proof. unfold add. lia. Qed.

Lemma add_no_overflow : add (2 ^ 63) (2 ^ 63) = (2 ^ 64)%Z.
Proof. reflexivity. Qed.

Lemma greet_literal : greet "Alice" = "Hello, Alice!".
Proof. reflexivity. Qed.

(** ** Lookups *)

Lemma dict_get_hit {K} `{Countable K} (d : gmap K value) key default v :
  d !! key = Some v → dict_get d key default = v.
Proof. unfold dict_get. by intros ->. Qed.

Lemma dict_get_miss {K} `{Countable K} (d : gmap K value) key default :
  d !! key = None → dict_get d key default = default.
Proof. unfold dict_get. by intros ->. Qed.

(** C1. [get_user_id] returns the mapped id for a username of the mapping
    (1 for "Alice", 2 for "Bob") and [None] for every other username; it
    is a total function, a miss raises nothing. *)
Theorem get_user_id_lookup (username : string) :
  (username = "Alice" → get_user_id username = VInt 1) ∧
  (username = "Bob" → get_user_id username = VInt 2) ∧
  (username ≠ "Alice" → username ≠ "Bob" → get_user_id username = VNone).
Proof.
  unfold get_user_id; cbv zeta.
  split; [|split].
  - intros ->. apply dict_get_hit. by rewrite lookup_insert_eq.
  - intros ->. apply dict_get_hit.
    rewrite lookup_insert_ne by discriminate. by rewrite lookup_singleton_eq.
  - intros HA HB. apply dict_get_miss.
    rewrite lookup_insert_ne by congruence.
    by rewrite lookup_singleton_ne by congruence.
Qed.

Lemma get_user_id_lookup_witness :
  get_user_id "Alice" = VInt 1 ∧ get_user_id "Bob" = VInt 2 ∧
  get_user_id "Carol" = VNone.
Proof.
  split; [|split].
  - apply (get_user_id_lookup "Alice"). reflexivity.
  - apply (get_user_id_lookup "Bob"). reflexivity.
  - apply (get_user_id_lookup "Carol"); discriminate.
Defined.

(** C5, as stated, fails: the id 3 is not in the mapping and
    [get_user_name] returns the string "Unknown" for it, not [None]. *)
Lemma get_user_name_miss_is_not_absent :
  ¬ (get_user_name 3 = VNone) ∧ get_user_name 3 = VStr "Unknown".
Proof. split; [discriminate | reflexivity]. Qed.

(** C5, amended. [get_user_name] returns the mapped name for an id of the
    mapping ("Alice" for 1, "Bob" for 2) and, on a miss, the default string
    "Unknown" given to the lookup. *)
Theorem get_user_name_lookup (user_id : Z) :
  (user_id = 1%Z → get_user_name user_id = VStr "Alice") ∧
  (user_id = 2%Z → get_user_name user_id = VStr "Bob") ∧
  (user_id ≠ 1%Z → user_id ≠ 2%Z → get_user_name user_id = VStr "Unknown").
Proof.
  unfold get_user_name, UserID; cbv zeta.
  split; [|split].
  - intros ->. apply dict_get_hit. by rewrite lookup_insert_eq.
  - intros ->. apply dict_get_hit.
    rewrite lookup_insert_ne by discriminate. by rewrite lookup_singleton_eq.
  - intros H1 H2. apply dict_get_miss.
    rewrite lookup_insert_ne by congruence.
    by rewrite lookup_singleton_ne by congruence.
Qed.

Lemma get_user_name_lookup_witness :
  get_user_name 1 = VStr "Alice" ∧ get_user_name 2 = VStr "Bob" ∧
  get_user_name 3 = VStr "Unknown".
Proof.
  split; [|split].
  - apply (get_user_name_lookup 1). reflexivity.
  - apply (get_user_name_lookup 2). reflexivity.
  - apply (get_user_name_lookup 3); discriminate.
Defined.

(** ** Texts of integers *)

#[local] Arguments str_int : simpl never.

Lemma to_int_proper (n : Z) :
  Z.to_int n ≠ Decimal.Pos Decimal.Nil ∧ Z.to_int n ≠ Decimal.Neg Decimal.Nil.
Proof.
  destruct n as [|p|p]; simpl; split; try discriminate;
    intros [= Hp]; by apply (Stdlib.Numbers.DecimalPos.Unsigned.to_uint_nonnil p).
Qed.

(** The text of an [int] reads back as that [int]. *)
Lemma decimal_parse (n : Z) :
  NilZero.int_of_string (decimal n) = Some (Z.to_int n).
Proof.
  unfold decimal. destruct (to_int_proper n). by apply NilZero.isi.
Qed.

Lemma decimal_inj (m n : Z) : decimal m = decimal n → m = n.
Proof.
  intros Heq. apply Stdlib.Numbers.DecimalZ.to_int_inj.
  apply (f_equal NilZero.int_of_string) in Heq.
  rewrite !decimal_parse in Heq. congruence.
Qed.

Lemma decimal_not_bool (n : Z) (b : bool) :
  decimal n ≠ (if b then "True" else "False").
Proof.
  intros Heq. apply (f_equal NilZero.int_of_string) in Heq.
  rewrite decimal_parse in Heq. by destruct b.
Qed.

Lemma str_int_fits (n : Z) :
  (Z.abs n < 10 ^ 4300)%Z → str_int n = Returns (decimal n).
Proof.
  intros Hn. unfold str_int, int_max_str_digits.
  apply Z.leb_gt in Hn. by rewrite Hn.
Qed.

Lemma str_int_too_long (n : Z) :
  (10 ^ 4300 <= Z.abs n)%Z → str_int n = Raises ValueError.
Proof.
  intros Hn. unfold str_int, int_max_str_digits.
  apply Z.leb_le in Hn. by rewrite Hn.
Qed.

Lemma str_int_returns_inv (n : Z) (text : string) :
  str_int n = Returns text → text = decimal n.
Proof.
  unfold str_int.
  destruct (10 ^ int_max_str_digits <=? Z.abs n)%Z; [discriminate|].
  by intros [= <-].
Qed.

(** The ints of everyday use are far below the limit. *)
Lemma small_int_fits (n : Z) :
  (Z.abs n < 10 ^ 18)%Z → (Z.abs n < 10 ^ 4300)%Z.
Proof.
  intros Hn. eapply Z.lt_le_trans; [exact Hn|].
  apply Z.pow_le_mono_r; lia.
Qed.

Lemma limit_is_too_long : (10 ^ 4300 <= Z.abs (10 ^ 4300))%Z.
Proof. rewrite Z.abs_eq; [apply Z.le_refl | apply Z.pow_nonneg; lia]. Qed.

(** ** The run-time type check *)

Lemma isinstance_int_inv (v : value) :
  isinstance v TInt = true → (∃ n, v = VInt n) ∨ (∃ b, v = VBool b).
Proof. destruct v; try discriminate; eauto. Qed.

Lemma isinstance_str_inv (v : value) :
  isinstance v TStr = true → ∃ s, v = VStr s.
Proof. destruct v; try discriminate; eauto. Qed.

Lemma process_int `{Formatter} (n : Z) :
  process (VInt n) =
  (text ← str_int n; mret (VStr ("Processing number " +:+ text))).
Proof. reflexivity. Qed.

Lemma process_bool `{Formatter} (b : bool) :
  process (VBool b) =
  Returns (VStr ("Processing number " +:+ (if b then "True" else "False"))).
Proof. by destruct b. Qed.

Lemma process_str `{Formatter} (s : string) :
  process (VStr s) = Returns (VStr ("Processing string '" +:+ s +:+ "'")).
Proof. reflexivity. Qed.

(** C2, as stated, fails: [10 ** 4300] is an [int], and [process] returns
    no string for it; formatting it raises [ValueError]. *)
Lemma process_long_int_raises :
  isinstance (VInt (10 ^ 4300)) TInt = true ∧
  @process placeholder_formatter (VInt (10 ^ 4300)) = Raises ValueError ∧
  ¬ returns_normally (@process placeholder_formatter (VInt (10 ^ 4300))).
Proof.
  assert (Hraise :
    @process placeholder_formatter (VInt (10 ^ 4300)) = Raises ValueError).
  { rewrite process_int, (str_int_too_long _ limit_is_too_long). reflexivity. }
  split; [reflexivity|]. split; [exact Hraise|].
  intros [message Hmessage]. rewrite Hraise in Hmessage. discriminate.
Qed.

(** C2, amended. [process] branches on the run-time type.  A value that
    is an [int] is an integer or a [bool], and one that is a [str] is a
    text.  For an [int] of at most 4300 digits [process] returns
    "Processing number {value}", the digits being the decimal numeral
    that reads back as the value; for a longer [int] formatting raises
    [ValueError]; for a [bool] it returns "Processing number True" or
    "Processing number False"; for a [str] it returns
    "Processing string '{value}'". *)
Theorem process_branches `{Formatter}
    (v : value) (n : Z) (b : bool) (s : string) :
  ((Z.abs n < 10 ^ 4300)%Z →
     ∃ digits,
       process (VInt n) = Returns (VStr ("Processing number " +:+ digits)) ∧
       NilZero.int_of_string digits = Some (Z.to_int n)) ∧
  ((10 ^ 4300 <= Z.abs n)%Z → process (VInt n) = Raises ValueError) ∧
  process (VBool b) =
    Returns (VStr ("Processing number " +:+ (if b then "True" else "False"))) ∧
  process (VStr s) = Returns (VStr ("Processing string '" +:+ s +:+ "'")) ∧
  (isinstance v TInt = true → (∃ m, v = VInt m) ∨ (∃ c, v = VBool c)) ∧
  (isinstance v TStr = true → ∃ t, v = VStr t).
Proof.
  split; [|split; [|split; [|split; [|split]]]].
  - intros Hn. exists (decimal n). split; [|apply decimal_parse].
    by rewrite process_int, (str_int_fits _ Hn).
  - intros Hn. by rewrite process_int, (str_int_too_long _ Hn).
  - apply process_bool.
  - apply process_str.
  - apply isinstance_int_inv.
  - apply isinstance_str_inv.
Qed.

Lemma process_branches_witness :
  @process placeholder_formatter (VInt 42) =
    Returns (VStr "Processing number 42") ∧
  @process placeholder_formatter (VInt (-7)) =
    Returns (VStr "Processing number -7") ∧
  @process placeholder_formatter (VStr "data") =
    Returns (VStr "Processing string 'data'").
Proof.
  split; [|split].
  - destruct (proj1 (@process_branches placeholder_formatter VNone 42 true "")
                (small_int_fits 42 eq_refl)) as (digits & -> & Hparse).
    apply NilZero.sis in Hparse. by rewrite <- Hparse.
  - destruct (proj1 (@process_branches placeholder_formatter VNone (-7) true "")
                (small_int_fits (-7) eq_refl)) as (digits & -> & Hparse).
    apply NilZero.sis in Hparse. by rewrite <- Hparse.
  - destruct (@process_branches placeholder_formatter VNone 0 true "data")
      as (_ & _ & _ & Hstr & _).
    exact Hstr.
Defined.

(** C8. For a value that is neither an [int] nor a [str], neither branch
    is taken and [process] falls through: it returns [None], not a string. *)
Theorem process_falls_through `{Formatter} (v : value) :
  isinstance v TInt = false → isinstance v TStr = false →
  process v = Returns VNone.
Proof. intros Hint Hstr. unfold process. by rewrite Hint, Hstr. Qed.

Lemma process_falls_through_witness :
  @process placeholder_formatter (VFloat 3.5) = Returns VNone.
Proof.
  apply (@process_falls_through placeholder_formatter (VFloat 3.5));
    reflexivity.
Defined.

(** ** The store *)

Lemma bind_run {A B} (m : M A) (f : A → M B) (σ : state) :
  (m ≫= f) σ =
  match m σ with
  | (Returns a, σ') => f a σ'
  | (Raises e, σ') => (Raises e, σ')
  end.
Proof. reflexivity. Qed.

Lemma readonly_ret {A} (a : A) : readonly (mret a : M A).
Proof. by intros σ. Qed.

Lemma readonly_lift {A} (o : outcome A) : readonly (lift o).
Proof. by intros σ. Qed.

Lemma readonly_getattr (v : value) (name : string) : readonly (getattr v name).
Proof.
  intros σ. unfold getattr.
  destruct v; try done.
  destruct (heap σ !! l) as [o|]; [|done].
  by destruct (obj_dict o !! name).
Qed.

Lemma readonly_bind {A B} (m : M A) (f : A → M B) :
  readonly m → (∀ a, readonly (f a)) → readonly (m ≫= f).
Proof.
  intros Hm Hf σ. rewrite bind_run.
  specialize (Hm σ). destruct (m σ) as [[a|e] σ']; simpl in *; subst.
  - apply Hf.
  - done.
Qed.

Lemma readonly_mapM {A B} (f : A → M B) (l : list A) :
  (∀ a, readonly (f a)) → readonly (mapM f l).
Proof.
  intros Hf. induction l as [|a l IH]; simpl.
  - apply readonly_ret.
  - apply readonly_bind; [apply Hf|]. intros b.
    apply readonly_bind; [apply IH|]. intros k. apply readonly_ret.
Qed.

Lemma readonly_if {A} (b : bool) (m1 m2 : M A) :
  readonly m1 → readonly m2 → readonly (if b then m1 else m2).
Proof. by destruct b. Qed.

Create HintDb readonly.
#[local] Hint Resolve readonly_ret readonly_lift readonly_getattr
  readonly_mapM : readonly.

Ltac solve_readonly :=
  repeat first
    [ apply readonly_bind; [|intros ?]
    | apply readonly_if
    | solve [auto with readonly] ].

Lemma Person_introduce_readonly `{Formatter} self :
  readonly (Person.introduce self).
Proof. unfold Person.introduce. solve_readonly. Qed.

Lemma Classroom_get_student_names_readonly self :
  readonly (Classroom.get_student_names self).
Proof. unfold Classroom.get_student_names. solve_readonly. Qed.

Lemma PersonWithNickname_introduce_readonly `{Formatter} self :
  readonly (PersonWithNickname.introduce self).
Proof. unfold PersonWithNickname.introduce. solve_readonly. Qed.

Lemma Box_get_content_readonly self : readonly (Box.get_content self).
Proof. unfold Box.get_content. solve_readonly. Qed.

Lemma School_get_total_students_readonly self :
  readonly (School.get_total_students self).
Proof. unfold School.get_total_students. solve_readonly. Qed.

(** Reading and assigning an attribute of the object allocated last. *)
Lemma setattr_last hp cls d ws name x :
  setattr (VRef (length hp)) name x (State (hp ++ [Object cls d]) ws) =
  (Returns (),
   State (hp ++ [Object cls (<[name := x]> d)]) (ws ++ [(length hp, name)])).
Proof.
  unfold setattr; simpl.
  rewrite list_lookup_middle by done; simpl.
  rewrite insert_app_r_alt by lia.
  by rewrite Nat.sub_diag.
Qed.

Lemma getattr_last hp cls d ws name :
  getattr (VRef (length hp)) name (State (hp ++ [Object cls d]) ws) =
  (match d !! name with
   | Some x => Returns x
   | None => Raises AttributeError
   end,
   State (hp ++ [Object cls d]) ws).
Proof.
  unfold getattr; simpl.
  rewrite list_lookup_middle by done; simpl.
  by destruct (d !! name).
Qed.

#[local] Arguments setattr : simpl never.
#[local] Arguments getattr : simpl never.

Ltac run_constructor :=
  intros; unfold constructed, mbind, M_bind, alloc; simpl;
  repeat (rewrite setattr_last; simpl);
  rewrite <- ?(assoc_L (++)); reflexivity.

Lemma Person_new_run name age σ :
  Person.new name age σ =
  (Returns (VRef (length (heap σ))),
   constructed σ "Person"
     (<["age" := age]> (<["name" := name]> ∅)) ["name"; "age"]).
Proof. unfold Person.new, Person.__init__. run_constructor. Qed.

Lemma Classroom_new_run students σ :
  Classroom.new students σ =
  (Returns (VRef (length (heap σ))),
   constructed σ "Classroom" (<["students" := students]> ∅) ["students"]).
Proof. unfold Classroom.new, Classroom.__init__. run_constructor. Qed.

Lemma PersonWithNickname_new_run name age nickname σ :
  PersonWithNickname.new name age nickname σ =
  (Returns (VRef (length (heap σ))),
   constructed σ "PersonWithNickname"
     (<["nickname" := nickname]> (<["age" := age]> (<["name" := name]> ∅)))
     ["name"; "age"; "nickname"]).
Proof.
  unfold PersonWithNickname.new, PersonWithNickname.__init__. run_constructor.
Qed.

Lemma Box_new_run content σ :
  Box.new content σ =
  (Returns (VRef (length (heap σ))),
   constructed σ "Box" (<["content" := content]> ∅) ["content"]).
Proof. unfold Box.new, Box.__init__. run_constructor. Qed.

Lemma School_new_run students σ :
  School.new students σ =
  (Returns (VRef (length (heap σ))),
   constructed σ "School" (<["students" := students]> ∅) ["students"]).
Proof. unfold School.new, School.__init__. run_constructor. Qed.

(** A constructor leaves the objects that were there as they were. *)
Lemma constructed_old σ cls attrs names l o :
  heap σ !! l = Some o → heap (constructed σ cls attrs names) !! l = Some o.
Proof. intros Hl. simpl. by apply lookup_app_l_Some. Qed.

(** C6. Every attribute of [Person], [Classroom], [PersonWithNickname],
    [Box] and [School] is assigned once, by the constructor, which adds
    the new object and touches no other; and every method ([introduce],
    [get_student_names], [get_content], [get_total_students]) leaves the
    whole store, so all fields of its object, unchanged. *)
Theorem attributes_set_once_then_only_read `{Formatter} :
  (∀ name age σ,
     (Person.new name age σ).2 =
     constructed σ "Person"
       (<["age" := age]> (<["name" := name]> ∅)) ["name"; "age"]) ∧
  (∀ students σ,
     (Classroom.new students σ).2 =
     constructed σ "Classroom" (<["students" := students]> ∅) ["students"]) ∧
  (∀ name age nickname σ,
     (PersonWithNickname.new name age nickname σ).2 =
     constructed σ "PersonWithNickname"
       (<["nickname" := nickname]> (<["age" := age]> (<["name" := name]> ∅)))
       ["name"; "age"; "nickname"]) ∧
  (∀ content σ,
     (Box.new content σ).2 =
     constructed σ "Box" (<["content" := content]> ∅) ["content"]) ∧
  (∀ students σ,
     (School.new students σ).2 =
     constructed σ "School" (<["students" := students]> ∅) ["students"]) ∧
  (∀ self σ, (Person.introduce self σ).2 = σ) ∧
  (∀ self σ, (Classroom.get_student_names self σ).2 = σ) ∧
  (∀ self σ, (PersonWithNickname.introduce self σ).2 = σ) ∧
  (∀ self σ, (Box.get_content self σ).2 = σ) ∧
  (∀ self σ, (School.get_total_students self σ).2 = σ).
Proof.
  repeat split; intros.
  - by rewrite Person_new_run.
  - by rewrite Classroom_new_run.
  - by rewrite PersonWithNickname_new_run.
  - by rewrite Box_new_run.
  - by rewrite School_new_run.
  - apply Person_introduce_readonly.
  - apply Classroom_get_student_names_readonly.
  - apply PersonWithNickname_introduce_readonly.
  - apply Box_get_content_readonly.
  - apply School_get_total_students_readonly.
Qed.

Lemma getattr_run σ l o name x :
  heap σ !! l = Some o → obj_dict o !! name = Some x →
  getattr (VRef l) name σ = (Returns x, σ).
Proof. intros Hl Hx. unfold getattr. by rewrite Hl, Hx. Qed.

Lemma constructed_new σ cls attrs names :
  heap (constructed σ cls attrs names) !! length (heap σ) =
  Some (Object cls attrs).
Proof. simpl. by apply list_lookup_middle. Qed.

(** ** The optional nickname *)

Lemma bind_lift_run {A B} (o : outcome A) (f : A → M B) (σ : state) :
  (lift o ≫= f) σ =
  match o with
  | Returns a => f a σ
  | Raises e => (Raises e, σ)
  end.
Proof. rewrite bind_run. unfold lift. by destruct o. Qed.

Lemma truthy_str (s : string) : truthy (VStr s) = true ↔ s ≠ "".
Proof.
  simpl. destruct (String.eqb_spec s ""); simpl; split; congruence.
Qed.

(** On an object that has the three attributes, [introduce] picks its
    sentence by the truth value of [nickname]. *)
Lemma PersonWithNickname_introduce_run `{Formatter} σ l o name age nickname :
  heap σ !! l = Some o →
  obj_dict o !! "name" = Some name →
  obj_dict o !! "age" = Some age →
  obj_dict o !! "nickname" = Some nickname →
  PersonWithNickname.introduce (VRef l) σ =
  (if truthy nickname then nickname_sentence name nickname
   else plain_sentence name age, σ).
Proof.
  intros Hl Hname Hage Hnick.
  unfold PersonWithNickname.introduce, nickname_sentence, plain_sentence.
  rewrite bind_run, (getattr_run _ _ _ _ _ Hl Hnick).
  destruct (truthy nickname).
  - rewrite bind_run, (getattr_run _ _ _ _ _ Hl Hname), bind_lift_run.
    destruct (format name) as [name_text|e]; [|done].
    rewrite bind_run, (getattr_run _ _ _ _ _ Hl Hnick), bind_lift_run.
    by destruct (format nickname).
  - rewrite bind_run, (getattr_run _ _ _ _ _ Hl Hname), bind_lift_run.
    destruct (format name) as [name_text|e]; [|done].
    rewrite bind_run, (getattr_run _ _ _ _ _ Hl Hage), bind_lift_run.
    by destruct (format age).
Qed.

Lemma introduce_new_run `{Formatter} name age nickname σ :
  (introduce_new name age nickname σ).1 =
  if truthy nickname then nickname_sentence name nickname
  else plain_sentence name age.
Proof.
  unfold introduce_new.
  rewrite bind_run, PersonWithNickname_new_run.
  erewrite PersonWithNickname_introduce_run; [done | apply constructed_new | ..];
    simpl; by simplify_map_eq.
Qed.

Lemma plain_sentence_returns `{Formatter} name age name_text age_text :
  format name = Returns name_text → format age = Returns age_text →
  plain_sentence name age =
  Returns (VStr ("My name is " +:+ name_text +:+ ", and I am "
                 +:+ age_text +:+ " years old.")).
Proof. unfold plain_sentence. by intros -> ->. Qed.

Lemma plain_sentence_raises `{Formatter} name age name_text e :
  format name = Returns name_text → format age = Raises e →
  plain_sentence name age = Raises e.
Proof. unfold plain_sentence. by intros -> ->. Qed.

(** C9, as stated, fails: with the age [10 ** 4300], an [int], no string
    is returned, neither with the empty nickname nor with [None]:
    formatting the age raises [ValueError]. *)
Lemma introduce_long_age_raises :
  (@introduce_new placeholder_formatter
     (VStr "Alice") (VInt (10 ^ 4300)) (VStr "") (State [] [])).1 =
  Raises ValueError ∧
  (@introduce_new placeholder_formatter
     (VStr "Alice") (VInt (10 ^ 4300)) VNone (State [] [])).1 =
  Raises ValueError.
Proof.
  assert (Hage : @format placeholder_formatter (VInt (10 ^ 4300)) =
                 Raises ValueError)
    by apply (str_int_too_long _ limit_is_too_long).
  split; rewrite introduce_new_run;
    apply (plain_sentence_raises _ _ "Alice"); done.
Qed.

(** C9, amended. [PersonWithNickname.introduce] branches on the truth
    value of [nickname], not on its presence.  For a name that can be
    formatted, it does with the empty string exactly what it does with
    [None]: it returns "My name is {name}, and I am {age} years old."
    when the age can be formatted, and raises what formatting the age
    raises when it cannot ([ValueError] for an [int] of more than 4300
    digits); only a non-empty nickname gives "My name is {name}, but you
    can call me {nickname}." *)
Theorem introduce_branches_on_truthiness `{Formatter}
    (name age : value) (nickname name_text : string) (σ : state) :
  format name = Returns name_text →
  (introduce_new name age (VStr "") σ).1 =
    (introduce_new name age VNone σ).1 ∧
  (∀ age_text, format age = Returns age_text →
     (introduce_new name age (VStr "") σ).1 =
     Returns (VStr ("My name is " +:+ name_text +:+ ", and I am "
                    +:+ age_text +:+ " years old."))) ∧
  (∀ e, format age = Raises e →
     (introduce_new name age (VStr "") σ).1 = Raises e) ∧
  (nickname ≠ "" →
   (introduce_new name age (VStr nickname) σ).1 =
   Returns (VStr ("My name is " +:+ name_text +:+ ", but you can call me "
                  +:+ nickname +:+ "."))) ∧
  (nickname = "" →
   (introduce_new name age (VStr nickname) σ).1 =
     (introduce_new name age VNone σ).1).
Proof.
  intros Hname. repeat split.
  - by rewrite !introduce_new_run.
  - intros age_text Hage. rewrite introduce_new_run.
    by apply plain_sentence_returns.
  - intros e Hage. rewrite introduce_new_run.
    by apply (plain_sentence_raises _ _ name_text).
  - intros Hne. rewrite introduce_new_run.
    apply truthy_str in Hne. rewrite Hne.
    unfold nickname_sentence. by rewrite Hname.
  - intros ->. by rewrite !introduce_new_run.
Qed.

Lemma introduce_branches_on_truthiness_witness :
  (@introduce_new placeholder_formatter
     (VStr "Alice") (VInt 30) (VStr "Ally") (State [] [])).1 =
  Returns (VStr "My name is Alice, but you can call me Ally.") ∧
  (@introduce_new placeholder_formatter
     (VStr "Alice") (VInt 30) (VStr "") (State [] [])).1 =
  Returns (VStr "My name is Alice, and I am 30 years old.").
Proof.
  destruct (@introduce_branches_on_truthiness placeholder_formatter
              (VStr "Alice") (VInt 30) "Ally" "Alice" (State [] []) eq_refl)
    as (_ & Hplain & _ & Hnick & _).
  split.
  - apply Hnick. discriminate.
  - apply (Hplain "30"). apply (str_int_fits 30), small_int_fits. reflexivity.
Defined.

(** ** The generic box *)

(** C10. For every content [x], of any type, [Box(x).get_content()]
    returns exactly [x]: constructing then reading is the identity. *)
Theorem Box_get_content_round_trip (content : value) (σ : state) :
  (unbox_new content σ).1 = Returns content ∧
  ∃ box σ', Box.new content σ = (Returns box, σ') ∧
            Box.get_content box σ' = (Returns content, σ').
Proof.
  assert (Hget :
    Box.get_content (VRef (length (heap σ)))
      (constructed σ "Box" (<["content" := content]> ∅) ["content"]) =
    (Returns content,
     constructed σ "Box" (<["content" := content]> ∅) ["content"])).
  { unfold Box.get_content.
    eapply getattr_run; [apply constructed_new|].
    simpl. by rewrite lookup_insert_eq. }
  split.
  - unfold unbox_new. by rewrite bind_run, Box_new_run, Hget.
  - eexists _, _. split; [apply Box_new_run | apply Hget].
Qed.

Lemma Box_get_content_literal :
  (unbox_new (VStr "Hello") (State [] [])).1 = Returns (VStr "Hello").
Proof. reflexivity. Qed.

(** ** Filtering a frame *)

(** A float that differs from itself is NaN, and NaN is below nothing
    and above nothing. *)
Lemma is_nan_spec (x : float) :
  PrimFloat.is_nan x = true →
  Corelib.Floats.FloatOps.Prim2SF x = Corelib.Floats.SpecFloat.S754_nan.
Proof.
  unfold PrimFloat.is_nan. rewrite Corelib.Floats.FloatAxioms.eqb_spec.
  unfold Corelib.Floats.SpecFloat.SFeqb, Corelib.Floats.SpecFloat.SFcompare.
  destruct (Corelib.Floats.FloatOps.Prim2SF x) as [s|s| |s m e]; try done.
  - by destruct s.
  - change (Pos.compare_cont Eq m m) with (Pos.compare m m).
    rewrite Z.compare_refl, Pos.compare_refl. by destruct s.
Qed.

Lemma ltb_nan_r (x : float) : PrimFloat.ltb x PrimFloat.nan = false.
Proof.
  rewrite Corelib.Floats.FloatAxioms.ltb_spec.
  change (Corelib.Floats.FloatOps.Prim2SF PrimFloat.nan)
    with Corelib.Floats.SpecFloat.S754_nan.
  unfold Corelib.Floats.SpecFloat.SFltb, Corelib.Floats.SpecFloat.SFcompare.
  by destruct (Corelib.Floats.FloatOps.Prim2SF x).
Qed.

Lemma ltb_is_nan_l (threshold x : float) :
  PrimFloat.is_nan threshold = true → PrimFloat.ltb threshold x = false.
Proof.
  intros Hnan%is_nan_spec.
  by rewrite Corelib.Floats.FloatAxioms.ltb_spec, Hnan.
Qed.

Lemma ltb_nan_l (x : float) : PrimFloat.ltb PrimFloat.nan x = false.
Proof. by apply ltb_is_nan_l. Qed.

Lemma above_nan threshold r :
  PrimFloat.is_nan threshold = true → above threshold r = false.
Proof.
  intros Hnan. unfold above.
  destruct (entry "value" r); by rewrite ?(ltb_is_nan_l _ _ Hnan).
Qed.

Lemma compare_cons threshold c column :
  mapM (cell_gt threshold) (c :: column) =
  (b ← cell_gt threshold c;
   mask ← mapM (cell_gt threshold) column;
   mret (b :: mask)).
Proof. reflexivity. Qed.

(** On a column of numbers the comparison yields the mask of [above]. *)
Lemma compare_numeric threshold rows :
  forallb (λ r, is_number (entry "value" r)) rows = true →
  mapM (cell_gt threshold) (entry "value" <$> rows) =
  Returns (above threshold <$> rows).
Proof.
  induction rows as [|r rows IH]; [done|].
  rewrite !fmap_cons, compare_cons.
  intros [Hr Hrows]%andb_prop.
  rewrite (IH Hrows). unfold above.
  by destruct (entry "value" r).
Qed.

(** One text entry makes the whole comparison raise. *)
Lemma compare_text threshold rows :
  forallb (λ r, is_number (entry "value" r)) rows = false →
  mapM (cell_gt threshold) (entry "value" <$> rows) = Raises TypeError.
Proof.
  induction rows as [|r rows IH]; [done|].
  rewrite fmap_cons, compare_cons.
  intros Hrows. apply andb_false_iff in Hrows as [Hr|Hrows].
  - by destruct (entry "value" r).
  - rewrite (IH Hrows). by destruct (entry "value" r).
Qed.

(** The mask of a column, when there is one: [above], row by row. *)
Lemma series_gt_mask threshold rows :
  PrimFloat.is_nan threshold = true ∨
  forallb (λ r, is_number (entry "value" r)) rows = true →
  series_gt (entry "value" <$> rows) threshold =
  Returns (above threshold <$> rows).
Proof.
  intros Hok. unfold series_gt.
  destruct (PrimFloat.is_nan threshold) eqn:Hnan.
  - f_equal. rewrite <- list_fmap_compose. apply list_fmap_ext.
    intros _ r _. simpl. by rewrite above_nan.
  - destruct Hok as [?|Hnum]; [done|]. by apply compare_numeric.
Qed.

Lemma series_gt_text threshold rows :
  PrimFloat.is_nan threshold = false →
  forallb (λ r, is_number (entry "value" r)) rows = false →
  series_gt (entry "value" <$> rows) threshold = Raises TypeError.
Proof.
  intros Hnan Htext. unfold series_gt. rewrite Hnan.
  by apply compare_text.
Qed.

Lemma select_mask (keep : row → bool) rows :
  select rows (keep <$> rows) = List.filter keep rows.
Proof.
  induction rows as [|r rows IH]; [done|].
  rewrite fmap_cons. cbn [select List.filter].
  rewrite IH. by destruct (keep r).
Qed.

Lemma filter_sublist_of {A} (keep : A → bool) (l : list A) :
  sublist (List.filter keep l) l.
Proof.
  induction l as [|a l IH]; simpl; [constructor|].
  destruct (keep a); by constructor.
Qed.

Lemma filter_data_numeric df threshold :
  "value" ∈ df_columns df →
  PrimFloat.is_nan threshold = true ∨ numeric_column df "value" = true →
  filter_data df threshold =
  Returns (Frame (df_columns df) (List.filter (above threshold) (df_rows df))).
Proof.
  intros Hcol Hok. unfold filter_data, getitem_column.
  rewrite decide_True by done. simpl.
  rewrite (series_gt_mask _ _ Hok). simpl.
  unfold getitem_mask.
  rewrite decide_True by (by rewrite length_fmap).
  by rewrite select_mask.
Qed.

Lemma filter_data_no_column df threshold :
  "value" ∉ df_columns df → filter_data df threshold = Raises KeyError.
Proof.
  intros Hcol. unfold filter_data, getitem_column.
  by rewrite decide_False by done.
Qed.

Lemma filter_data_text df threshold :
  "value" ∈ df_columns df →
  PrimFloat.is_nan threshold = false →
  numeric_column df "value" = false →
  filter_data df threshold = Raises TypeError.
Proof.
  intros Hcol Hnan Hnum. unfold filter_data, getitem_column.
  rewrite decide_True by done. simpl.
  by rewrite (series_gt_text _ _ Hnan Hnum).
Qed.

(** C4, as stated, fails, in two ways.  A frame with text under
    ['value'] has the column, and [filter_data] raises [TypeError]
    instead of returning rows.  And in an int64 column the entry
    [2 ** 53 + 1] is greater than the threshold [2.0 ** 53] (the float of
    mantissa [2 ** 52] and exponent 1), but its row is not returned: as a
    float64 the entry is the threshold itself. *)
Lemma filter_data_text_or_long_int :
  ("value" ∈ df_columns frame_with_text_value ∧
   ¬ returns_normally (filter_data frame_with_text_value 10) ∧
   filter_data frame_with_text_value 10 = Raises TypeError) ∧
  ("value" ∈ df_columns frame_with_int_value ∧
   Corelib.Floats.FloatOps.Prim2SF 9007199254740992 =
     Corelib.Floats.SpecFloat.S754_finite false 4503599627370496 1 ∧
   (4503599627370496 * 2 ^ 1 < 9007199254740993)%Z ∧
   ∃ row out,
     df_rows frame_with_int_value !! 2%nat = Some row ∧
     row_cells row !! "value" = Some (CInt (Int64 9007199254740993 I)) ∧
     filter_data frame_with_int_value 9007199254740992 = Returns out ∧
     row ∉ df_rows out).
Proof.
  split.
  - assert (H : filter_data frame_with_text_value 10 = Raises TypeError)
      by (by vm_compute).
    split; [by vm_compute|]. split; [|done].
    intros [out Hout]. rewrite H in Hout. discriminate.
  - split; [by vm_compute|]. split; [by vm_compute|]. split; [done|].
    eexists _, (Frame (df_columns frame_with_int_value) []).
    split; [reflexivity|]. split; [by vm_compute|].
    split; [by vm_compute|]. simpl. apply not_elem_of_nil.
Qed.

(** C4, amended. For every frame with a ['value'] column and every
    threshold, when the column holds numbers only (int64 or float64
    entries, NaN for a missing one) or the threshold is NaN,
    [filter_data] returns the frame of exactly the rows whose ['value']
    entry, taken as a float64, is strictly greater than the threshold, in
    their order, and no other row. *)
Theorem filter_data_keeps_rows_above (df : DataFrame) (threshold : float) :
  "value" ∈ df_columns df →
  PrimFloat.is_nan threshold = true ∨ numeric_column df "value" = true →
  ∃ out,
    filter_data df threshold = Returns out ∧
    df_columns out = df_columns df ∧
    df_rows out = List.filter (above threshold) (df_rows df) ∧
    sublist (df_rows out) (df_rows df) ∧
    (∀ r, r ∈ df_rows out ↔ r ∈ df_rows df ∧ above threshold r = true).
Proof.
  intros Hcol Hok. eexists. split; [by apply filter_data_numeric|].
  simpl. split; [done|]. split; [done|]. split.
  - apply filter_sublist_of.
  - intros r. rewrite !list_elem_of_In. apply List.filter_In.
Qed.

Lemma filter_data_keeps_rows_above_witness :
  (∃ out,
     filter_data sample_frame 10 = Returns out ∧
     df_columns out = df_columns sample_frame ∧
     df_rows out = List.filter (above 10) (df_rows sample_frame) ∧
     sublist (df_rows out) (df_rows sample_frame) ∧
     (∀ r, r ∈ df_rows out ↔ r ∈ df_rows sample_frame ∧ above 10 r = true)) ∧
  (∃ out,
     filter_data frame_with_int_value 10 = Returns out ∧
     df_columns out = df_columns frame_with_int_value ∧
     df_rows out = List.filter (above 10) (df_rows frame_with_int_value) ∧
     sublist (df_rows out) (df_rows frame_with_int_value) ∧
     (∀ r, r ∈ df_rows out ↔
           r ∈ df_rows frame_with_int_value ∧ above 10 r = true)).
Proof.
  split.
  - apply (filter_data_keeps_rows_above sample_frame 10).
    + vm_compute. reflexivity.
    + right. vm_compute. reflexivity.
  - apply (filter_data_keeps_rows_above frame_with_int_value 10).
    + vm_compute. reflexivity.
    + right. vm_compute. reflexivity.
Defined.

Lemma filter_data_sample_labels :
  (∃ out, filter_data sample_frame 10 = Returns out ∧
          row_label <$> df_rows out = [1%Z; 3%Z]) ∧
  (∃ out, filter_data frame_with_int_value 10 = Returns out ∧
          row_label <$> df_rows out = [1%Z; 2%Z]).
Proof.
  split; (eexists; split; [by vm_compute|]); reflexivity.
Qed.

(** ** Exceptions are neither prevented nor caught *)

Lemma get_user_name_is_str (user_id : Z) :
  ∃ name, get_user_name user_id = VStr name.
Proof.
  unfold get_user_name, dict_get, UserID; cbv zeta.
  destruct (decide (user_id = 1%Z)) as [->|H1].
  { rewrite lookup_insert_eq. eauto. }
  rewrite lookup_insert_ne by done.
  destruct (decide (user_id = 2%Z)) as [->|H2].
  { rewrite lookup_singleton_eq. eauto. }
  rewrite lookup_singleton_ne by done. eauto.
Qed.

(** C7, as stated, fails: on this frame, which has no ['value'] column,
    [filter_data] does not return normally, it raises [KeyError]. *)
Lemma filter_data_without_value_raises :
  ¬ returns_normally (filter_data frame_without_value 10) ∧
  filter_data frame_without_value 10 = Raises KeyError.
Proof.
  assert (H : filter_data frame_without_value 10 = Raises KeyError)
    by (by vm_compute).
  split; [|done].
  intros [out Hout]. rewrite H in Hout. discriminate.
Qed.

(** C7, amended. No operation validates its arguments or catches an
    exception, so what is raised inside reaches the caller:
    [get_user_name] returns normally, a string, for every id;
    [filter_data] returns normally exactly when the frame has a ['value']
    column and either that column holds numbers only or the threshold is
    NaN; without a ['value'] column it raises [KeyError], and with text
    under ['value'] and a threshold that is not NaN it raises
    [TypeError]. *)
Theorem errors_reach_the_caller
    (user_id : Z) (df : DataFrame) (threshold : float) :
  (∃ name, get_user_name user_id = VStr name) ∧
  (returns_normally (filter_data df threshold) ↔
     "value" ∈ df_columns df ∧
     (PrimFloat.is_nan threshold = true ∨ numeric_column df "value" = true)) ∧
  ("value" ∉ df_columns df → filter_data df threshold = Raises KeyError) ∧
  ("value" ∈ df_columns df → PrimFloat.is_nan threshold = false →
     numeric_column df "value" = false →
     filter_data df threshold = Raises TypeError).
Proof.
  split; [apply get_user_name_is_str|].
  split; [|split].
  - split.
    + intros [out Hout].
      destruct (decide ("value" ∈ df_columns df)) as [Hcol|Hcol].
      * split; [done|].
        destruct (PrimFloat.is_nan threshold) eqn:Hnan; [by left|right].
        destruct (numeric_column df "value") eqn:Hnum; [done|].
        rewrite (filter_data_text _ _ Hcol Hnan Hnum) in Hout. discriminate.
      * rewrite (filter_data_no_column _ _ Hcol) in Hout. discriminate.
    + intros [Hcol Hok]. eexists. by apply filter_data_numeric.
  - apply filter_data_no_column.
  - apply filter_data_text.
Qed.

Lemma errors_reach_the_caller_witness :
  filter_data frame_without_value 10 = Raises KeyError ∧
  filter_data frame_with_text_value 10 = Raises TypeError ∧
  returns_normally (filter_data frame_with_text_value PrimFloat.nan) ∧
  returns_normally (filter_data sample_frame 10).
Proof.
  split; [|split; [|split]].
  - apply (errors_reach_the_caller 3 frame_without_value 10).
    vm_compute. discriminate.
  - apply (errors_reach_the_caller 3 frame_with_text_value 10).
    + vm_compute. reflexivity.
    + vm_compute. reflexivity.
    + vm_compute. reflexivity.
  - apply (errors_reach_the_caller 3 frame_with_text_value PrimFloat.nan).
    split; [vm_compute; reflexivity | left; vm_compute; reflexivity].
  - apply (errors_reach_the_caller 3 sample_frame 10).
    split; [vm_compute; reflexivity | right; vm_compute; reflexivity].
Defined.

(** * Further properties *)

(** ** Texts *)

Lemma append_char_inj (s t : string) (c : Ascii.ascii) :
  s +:+ String c "" = t +:+ String c "" → s = t.
Proof.
  revert t. induction s as [|a s IH]; intros [|b t]; simpl.
  - done.
  - intros [= -> Ht]. by destruct t.
  - intros [= -> Hs]. by destruct s.
  - intros [= -> Hst]. f_equal. by apply IH.
Qed.

Lemma append_length (s t : string) :
  String.length (s +:+ t) = (String.length s + String.length t)%nat.
Proof. induction s as [|c s IH]; simpl; [done | by rewrite IH]. Qed.

Lemma greet_inj (a b : string) : greet a = greet b → a = b.
Proof. unfold greet; simpl. intros [= Heq]. by apply append_char_inj in Heq. Qed.

(** X1. [greet] never gives two names the same greeting: the name can be
    read back from the text, which is the name between "Hello, " and "!". *)
Theorem greet_identifies_name (a b : string) :
  (greet a = greet b ↔ a = b) ∧
  String.length (greet a) = (String.length a + 8)%nat.
Proof.
  split; [split; [apply greet_inj | by intros ->]|].
  unfold greet. rewrite !append_length. simpl. lia.
Qed.

(** ** The two user tables *)

Lemma get_user_id_cases (username : string) :
  get_user_id username =
  if decide (username = "Alice") then VInt 1
  else if decide (username = "Bob") then VInt 2
  else VNone.
Proof.
  unfold get_user_id, dict_get; cbv zeta.
  destruct (decide (username = "Alice")) as [->|HA].
  { by rewrite lookup_insert_eq. }
  rewrite lookup_insert_ne by done.
  destruct (decide (username = "Bob")) as [->|HB].
  { by rewrite lookup_singleton_eq. }
  by rewrite lookup_singleton_ne by done.
Qed.

Lemma get_user_name_cases (user_id : Z) :
  get_user_name user_id =
  if decide (user_id = 1%Z) then VStr "Alice"
  else if decide (user_id = 2%Z) then VStr "Bob"
  else VStr "Unknown".
Proof.
  unfold get_user_name, dict_get, UserID; cbv zeta.
  destruct (decide (user_id = 1%Z)) as [->|H1].
  { by rewrite lookup_insert_eq. }
  rewrite lookup_insert_ne by done.
  destruct (decide (user_id = 2%Z)) as [->|H2].
  { by rewrite lookup_singleton_eq. }
  by rewrite lookup_singleton_ne by done.
Qed.

(** X2. The table of [get_user_id] and the table of [get_user_name] are
    inverse to each other: a username has the id [n] exactly when [n] has
    that username, "Unknown" being the answer for no id of the table. *)
Theorem user_tables_are_inverse (username : string) (n : Z) :
  get_user_id username = VInt n ↔
  get_user_name n = VStr username ∧ username ≠ "Unknown".
Proof.
  rewrite get_user_id_cases, get_user_name_cases.
  repeat case_decide; subst; split;
    try (intros [[=] ?]); try (intros [=]); subst;
    try done; try lia.
Qed.

(** ** More on the run-time type check *)

(** [process] returns [None] exactly on the values that are neither an
    [int] nor a [str]; on every [int] and [str] it returns a string. *)
Lemma process_none_iff `{Formatter} (v : value) :
  process v = Returns VNone ↔
  isinstance v TInt = false ∧ isinstance v TStr = false.
Proof.
  unfold process.
  destruct (isinstance v TInt), (isinstance v TStr);
    split; try done; try (intros [? ?]; done);
    by destruct (format v).
Qed.

Lemma process_int_inv `{Formatter} (n : Z) (message : value) :
  process (VInt n) = Returns message →
  message = VStr ("Processing number " +:+ decimal n).
Proof.
  rewrite process_int.
  destruct (str_int n) as [text|e] eqn:Htext; [|discriminate].
  apply str_int_returns_inv in Htext as ->. by intros [= <-].
Qed.

(** X3. The message of [process] determines its input: two values, each
    an [int] (a [bool] included) or a [str], that get the same message are
    the same value.  In particular no number is taken for a string, and
    [True] is not taken for [1]. *)
Theorem process_message_identifies_input `{Formatter}
    (v w : value) (message : value) :
  isinstance v TInt || isinstance v TStr = true →
  isinstance w TInt || isinstance w TStr = true →
  process v = Returns message → process w = Returns message → v = w.
Proof.
  intros Hv Hw Hm Hm'.
  destruct v as [|b|m|x|s|items|l]; try discriminate Hv;
  destruct w as [|b'|n|x'|t|items'|l']; try discriminate Hw;
    first [apply process_int_inv in Hm
          | rewrite ?process_bool, ?process_str in Hm;
            injection Hm as Hm; symmetry in Hm ];
    first [apply process_int_inv in Hm'
          | rewrite ?process_bool, ?process_str in Hm';
            injection Hm' as Hm'; symmetry in Hm' ];
    rewrite Hm in Hm'; revert Hm'; simpl; intros [= Heq].
  - by destruct b, b'.
  - symmetry in Heq. by apply decimal_not_bool in Heq.
  - by apply decimal_not_bool in Heq.
  - f_equal. by apply decimal_inj.
  - f_equal. by apply append_char_inj in Heq.
Qed.

Lemma process_message_identifies_input_witness :
  ¬ ∃ message,
      @process placeholder_formatter (VBool true) = Returns message ∧
      @process placeholder_formatter (VInt 1) = Returns message.
Proof.
  intros (message & Hbool & Hint).
  pose proof (@process_message_identifies_input placeholder_formatter
                (VBool true) (VInt 1) message eq_refl eq_refl Hbool Hint)
    as Heq.
  discriminate Heq.
Defined.

(** ** Objects at work *)

Lemma getattr_lookup σ l o name :
  heap σ !! l = Some o →
  getattr (VRef l) name σ =
  (match obj_dict o !! name with
   | Some x => Returns x
   | None => Raises AttributeError
   end, σ).
Proof. intros Hl. unfold getattr. rewrite Hl. by destruct (obj_dict o !! name). Qed.

Lemma Person_introduce_run `{Formatter} σ l o name age :
  heap σ !! l = Some o →
  obj_dict o !! "name" = Some name →
  obj_dict o !! "age" = Some age →
  Person.introduce (VRef l) σ = (plain_sentence name age, σ).
Proof.
  intros Hl Hname Hage. unfold Person.introduce, plain_sentence.
  rewrite bind_run, (getattr_run _ _ _ _ _ Hl Hname), bind_lift_run.
  destruct (format name) as [name_text|e]; [|done].
  rewrite bind_run, (getattr_run _ _ _ _ _ Hl Hage), bind_lift_run.
  by destruct (format age).
Qed.

Lemma introduce_person_run `{Formatter} name age σ :
  (introduce_person name age σ).1 = plain_sentence name age.
Proof.
  unfold introduce_person.
  rewrite bind_run, Person_new_run.
  erewrite Person_introduce_run; [done | apply constructed_new | ..];
    simpl; by simplify_map_eq.
Qed.

(** X4. For every name and age that can be formatted,
    [Person(name, age).introduce()] returns "My name is {name}, and I am
    {age} years old.", in every store: what the constructor assigns is
    what the method reads.  When the age cannot be formatted (an [int] of
    more than 4300 digits) the call raises what formatting it raises.
    Either way the store is left as the constructor left it. *)
Theorem Person_introduce_after_new `{Formatter}
    (name age : value) (name_text : string) (σ : state) :
  format name = Returns name_text →
  (∀ age_text, format age = Returns age_text →
     (introduce_person name age σ).1 =
     Returns (VStr ("My name is " +:+ name_text +:+ ", and I am "
                    +:+ age_text +:+ " years old."))) ∧
  (∀ e, format age = Raises e → (introduce_person name age σ).1 = Raises e) ∧
  (introduce_person name age σ).2 = (Person.new name age σ).2.
Proof.
  intros Hname. split; [|split].
  - intros age_text Hage. rewrite introduce_person_run.
    by apply plain_sentence_returns.
  - intros e Hage. rewrite introduce_person_run.
    by apply (plain_sentence_raises _ _ name_text).
  - unfold introduce_person. rewrite bind_run, Person_new_run.
    cbv beta iota. apply Person_introduce_readonly.
Qed.

Lemma Person_introduce_after_new_witness :
  (@introduce_person placeholder_formatter
     (VStr "Alice") (VInt 30) (State [] [])).1 =
  Returns (VStr "My name is Alice, and I am 30 years old.") ∧
  (@introduce_person placeholder_formatter
     (VStr "Alice") (VInt (10 ^ 4300)) (State [] [])).1 =
  Raises ValueError.
Proof.
  split.
  - destruct (@Person_introduce_after_new placeholder_formatter
                (VStr "Alice") (VInt 30) "Alice" (State [] []) eq_refl)
      as (Hreturns & _ & _).
    apply (Hreturns "30").
    apply (str_int_fits 30), small_int_fits. reflexivity.
  - destruct (@Person_introduce_after_new placeholder_formatter
                (VStr "Alice") (VInt (10 ^ 4300)) "Alice" (State [] []) eq_refl)
      as (_ & Hraises & _).
    apply Hraises.
    apply (str_int_too_long _ limit_is_too_long).
Defined.

(** X5. A [PersonWithNickname] whose nickname is false ([None], the empty
    string) introduces itself word for word as the [Person] of the same
    name and age does. *)
Theorem no_nickname_introduces_as_Person `{Formatter}
    (name age nickname : value) (σ : state) :
  truthy nickname = false →
  (introduce_new name age nickname σ).1 = (introduce_person name age σ).1.
Proof.
  intros Hfalse. by rewrite introduce_new_run, introduce_person_run, Hfalse.
Qed.

Lemma no_nickname_introduces_as_Person_witness :
  (@introduce_new placeholder_formatter
     (VStr "Bob") (VInt 41) VNone (State [] [])).1 =
  (@introduce_person placeholder_formatter
     (VStr "Bob") (VInt 41) (State [] [])).1.
Proof.
  apply (@no_nickname_introduces_as_Person placeholder_formatter).
  reflexivity.
Defined.

(** What [introduce] returns depends on the object it is called on and
    on nothing else in the store. *)
Lemma Person_introduce_local `{Formatter} σ σ' l o :
  heap σ !! l = Some o → heap σ' !! l = Some o →
  (Person.introduce (VRef l) σ).1 = (Person.introduce (VRef l) σ').1.
Proof.
  intros Hl Hl'. unfold Person.introduce.
  rewrite !bind_run, (getattr_lookup _ _ _ _ Hl), (getattr_lookup _ _ _ _ Hl').
  destruct (obj_dict o !! "name") as [name|]; [|done].
  rewrite !bind_lift_run.
  destruct (format name) as [name_text|e]; [|done].
  rewrite !bind_run, (getattr_lookup _ _ _ _ Hl), (getattr_lookup _ _ _ _ Hl').
  destruct (obj_dict o !! "age") as [age|]; [|done].
  rewrite !bind_lift_run.
  by destruct (format age).
Qed.

Lemma Person_introduce_returns_inv `{Formatter} p σ s :
  (Person.introduce p σ).1 = Returns s →
  ∃ l o, p = VRef l ∧ heap σ !! l = Some o.
Proof.
  unfold Person.introduce. rewrite bind_run. unfold getattr at 1.
  intros Hs.
  destruct p as [| | | | | |l]; try discriminate Hs.
  destruct (heap σ !! l) as [o|] eqn:Hl; [eauto | discriminate Hs].
Qed.

(** X6. Creating one more [Person] does not change what an existing
    object answers to [introduce], and the new person is another object
    than the existing one. *)
Theorem new_Person_leaves_others `{Formatter}
    (p : value) (s : value) (name age : value) (σ : state) :
  (Person.introduce p σ).1 = Returns s →
  (Person.introduce p (Person.new name age σ).2).1 = Returns s ∧
  (Person.new name age σ).1 ≠ Returns p.
Proof.
  intros Hs.
  destruct (Person_introduce_returns_inv _ _ _ Hs) as (l & o & -> & Hl).
  rewrite Person_new_run. simpl. split.
  - rewrite <- Hs. symmetry.
    apply (Person_introduce_local _ _ _ o); [done|].
    simpl. by apply lookup_app_l_Some.
  - intros [= Heq]. apply lookup_lt_Some in Hl. lia.
Qed.

Lemma new_Person_leaves_others_witness :
  let σ := (Person.new (VStr "Alice") (VInt 30) (State [] [])).2 in
  (@Person.introduce placeholder_formatter (VRef 0)
     (Person.new (VStr "Bob") (VInt 41) σ).2).1 =
  Returns (VStr "My name is Alice, and I am 30 years old.").
Proof.
  intros σ.
  apply (@new_Person_leaves_others placeholder_formatter
           (VRef 0) (VStr "My name is Alice, and I am 30 years old.")
           (VStr "Bob") (VInt 41) σ).
  reflexivity.
Defined.

(** ** Class rooms and schools *)

Lemma names_run σ items names :
  Forall2 (λ v name, getattr v "name" σ = (Returns name, σ)) items names →
  mapM (λ student, getattr student "name") items σ = (Returns names, σ).
Proof.
  induction 1 as [|v name items names Hv _ IH]; [done|].
  cbn [mapM]. rewrite bind_run, Hv. cbv beta iota.
  by rewrite bind_run, IH.
Qed.

Lemma new_people_run people σ :
  ∃ ws,
    new_people people σ =
    (Returns (VRef <$> seq (length (heap σ)) (length people)),
     State (heap σ ++ (person_object <$> people)) ws).
Proof.
  revert σ. induction people as [|person people IH]; intros σ.
  - exists (writes σ). unfold new_people. simpl.
    rewrite app_nil_r. by destruct σ.
  - unfold new_people in *. cbn [mapM].
    rewrite bind_run, Person_new_run. cbv beta iota.
    destruct (IH (constructed σ "Person"
                    (<["age" := person.2]> (<["name" := person.1]> ∅))
                    ["name"; "age"])) as [ws Hrun].
    exists ws. rewrite bind_run, Hrun. cbv beta iota.
    simpl. rewrite length_app, Nat.add_1_r. simpl.
    by rewrite <- (assoc_L (++)).
Qed.

Lemma people_names_in_store hp people tail ws :
  Forall2
    (λ v name,
       getattr v "name" (State (hp ++ (person_object <$> people) ++ tail) ws) =
       (Returns name, State (hp ++ (person_object <$> people) ++ tail) ws))
    (VRef <$> seq (length hp) (length people)) (people.*1).
Proof.
  revert hp. induction people as [|person people IH]; intros hp.
  - constructor.
  - simpl. constructor.
    + eapply getattr_run.
      * simpl. by apply list_lookup_middle.
      * simpl. by simplify_map_eq.
    + specialize (IH (hp ++ [person_object person])%list).
      rewrite length_app, Nat.add_1_r in IH.
      by rewrite <- !(assoc_L (++)) in IH.
Qed.

(** X7. A class room built of freshly created persons lists exactly
    their names, one for each person, in the order of the list; the empty
    class room lists no name. *)
Theorem roster_names_in_order (people : list (value * value)) (σ : state) :
  (roster_names people σ).1 = Returns (VList (people.*1)).
Proof.
  unfold roster_names. rewrite bind_run.
  destruct (new_people_run people σ) as [ws ->]. cbv beta iota.
  rewrite bind_run, Classroom_new_run. cbv beta iota.
  unfold Classroom.get_student_names.
  rewrite bind_run.
  erewrite getattr_run;
    [ | apply constructed_new | simpl; by rewrite lookup_insert_eq ].
  cbv beta iota. rewrite bind_run. unfold lift, iter. cbv beta iota.
  rewrite bind_run.
  rewrite (names_run _ _ (people.*1)); [done|].
  unfold constructed. simpl. rewrite <- (assoc_L (++)).
  apply people_names_in_store.
Qed.

Lemma class_names_run students σ :
  (class_names students σ).1 =
  match iter students with
  | Returns items =>
      match
        mapM (λ student, getattr student "name") items
          (constructed σ "Classroom" (<["students" := students]> ∅) ["students"])
      with
      | (Returns names, _) => Returns (VList names)
      | (Raises e, _) => Raises e
      end
  | Raises e => Raises e
  end.
Proof.
  unfold class_names. rewrite bind_run, Classroom_new_run. cbv beta iota.
  unfold Classroom.get_student_names. rewrite bind_run.
  erewrite getattr_run;
    [ | apply constructed_new | simpl; by rewrite lookup_insert_eq ].
  cbv beta iota. rewrite bind_run. unfold lift.
  destruct (iter students) as [items|e]; [|done].
  cbv beta iota. rewrite bind_run.
  by destruct (@mapM M _ _ _ _ _ items _) as [[names|e] σ'].
Qed.

Lemma head_count_run students σ :
  (head_count students σ).1 =
  match len students with
  | Returns n => Returns (VInt n)
  | Raises e => Raises e
  end.
Proof.
  unfold head_count. rewrite bind_run, School_new_run. cbv beta iota.
  unfold School.get_total_students. rewrite bind_run.
  erewrite getattr_run;
    [ | apply constructed_new | simpl; by rewrite lookup_insert_eq ].
  cbv beta iota. rewrite bind_run. unfold lift.
  by destruct (len students).
Qed.

(** X8. A school built on a list counts its items, whatever they are: the
    total is the length of the list, so never negative, and zero for the
    empty list; the items are not looked at. *)
Theorem head_count_is_length (items : list value) (σ : state) :
  (head_count (VList items) σ).1 = Returns (VInt (Z.of_nat (length items))) ∧
  (head_count (VList []) σ).1 = Returns (VInt 0).
Proof. by rewrite !head_count_run. Qed.

(** X9. Nothing is checked when a [Classroom] or a [School] is built:
    with students that have no length and cannot be iterated over
    ([None], a [bool], an [int], a [float], an instance of a notebook
    class) both constructors return normally, and the failure shows only
    when the method runs, as a [TypeError]. *)
Theorem unsized_students_fail_late (students : value) (σ : state) :
  unsized students = true →
  returns_normally (Classroom.new students σ).1 ∧
  returns_normally (School.new students σ).1 ∧
  (class_names students σ).1 = Raises TypeError ∧
  (head_count students σ).1 = Raises TypeError.
Proof.
  intros Hunsized.
  rewrite Classroom_new_run, School_new_run, class_names_run, head_count_run.
  repeat split; [by eexists | by eexists | |];
    by destruct students.
Qed.

Lemma unsized_students_fail_late_witness :
  (class_names VNone (State [] [])).1 = Raises TypeError ∧
  (head_count (VInt 3) (State [] [])).1 = Raises TypeError.
Proof.
  split.
  - apply (unsized_students_fail_late VNone (State [] [])); reflexivity.
  - apply (unsized_students_fail_late (VInt 3) (State [] [])); reflexivity.
Defined.

Lemma getattr_outcome v name σ :
  (∃ x, getattr v name σ = (Returns x, σ)) ∨
  getattr v name σ = (Raises AttributeError, σ).
Proof.
  unfold getattr. destruct v as [| | | | | |l]; auto.
  destruct (heap σ !! l) as [o|]; [|auto].
  destruct (obj_dict o !! name); eauto.
Qed.

Lemma names_raise σ items :
  Exists (λ v, isinstance v TObject = false) items →
  mapM (λ student, getattr student "name") items σ = (Raises AttributeError, σ).
Proof.
  induction 1 as [v items Hv|v items _ IH]; cbn [mapM]; rewrite bind_run.
  - by destruct v.
  - destruct (getattr_outcome v "name" σ) as [[x ->]| ->]; [|done].
    cbv beta iota. by rewrite bind_run, IH.
Qed.

(** X10. [get_student_names] needs every student to be an object: if one
    item the class room iterates over is not (a number, a string, [None],
    the characters of a string given for the list), the call raises
    [AttributeError] and returns no partial list. *)
Theorem class_names_needs_objects (students : value) (items : list value)
    (σ : state) :
  iter students = Returns items →
  Exists (λ v, isinstance v TObject = false) items →
  (class_names students σ).1 = Raises AttributeError.
Proof.
  intros Hiter Hbad. rewrite class_names_run, Hiter.
  by rewrite (names_raise _ _ Hbad).
Qed.

Lemma class_names_needs_objects_witness :
  (class_names (VList [VStr "Alice"]) (State [] [])).1 = Raises AttributeError ∧
  (class_names (VStr "ab") (State [] [])).1 = Raises AttributeError.
Proof.
  split.
  - apply (class_names_needs_objects _ [VStr "Alice"]); [reflexivity|].
    constructor. reflexivity.
  - apply (class_names_needs_objects _ [VStr "a"; VStr "b"]); [reflexivity|].
    constructor. reflexivity.
Defined.

(** ** More on filtering *)

Lemma numeric_column_filter (keep : row → bool) cols rows key :
  numeric_column (Frame cols rows) key = true →
  numeric_column (Frame cols (List.filter keep rows)) key = true.
Proof.
  unfold numeric_column; simpl. rewrite !forallb_forall.
  intros Hall r [Hr _]%List.filter_In. by apply Hall.
Qed.

Lemma filter_data_returns_inv df threshold out :
  filter_data df threshold = Returns out →
  "value" ∈ df_columns df ∧
  (PrimFloat.is_nan threshold = true ∨ numeric_column df "value" = true) ∧
  out = Frame (df_columns df) (List.filter (above threshold) (df_rows df)).
Proof.
  intros Hout.
  destruct (decide ("value" ∈ df_columns df)) as [Hcol|Hcol].
  - assert (Hok : PrimFloat.is_nan threshold = true ∨
                  numeric_column df "value" = true).
    { destruct (PrimFloat.is_nan threshold) eqn:Hnan; [by left|right].
      destruct (numeric_column df "value") eqn:Hnum; [done|].
      rewrite (filter_data_text _ _ Hcol Hnan Hnum) in Hout. discriminate. }
    rewrite (filter_data_numeric _ _ Hcol Hok) in Hout.
    injection Hout as <-. done.
  - rewrite (filter_data_no_column _ _ Hcol) in Hout. discriminate.
Qed.

Lemma filter_keeps_ok (keep : row → bool) cols rows threshold :
  PrimFloat.is_nan threshold = true ∨
  numeric_column (Frame cols rows) "value" = true →
  PrimFloat.is_nan threshold = true ∨
  numeric_column (Frame cols (List.filter keep rows)) "value" = true.
Proof. intros [?|Hnum]; [by left | right; by apply numeric_column_filter]. Qed.

Lemma filter_filter_same {A} (f : A → bool) (l : list A) :
  List.filter f (List.filter f l) = List.filter f l.
Proof.
  induction l as [|a l IH]; simpl; [done|].
  destruct (f a) eqn:Hfa; simpl; [by rewrite Hfa, IH | done].
Qed.

Lemma filter_filter_comm {A} (f g : A → bool) (l : list A) :
  List.filter f (List.filter g l) = List.filter g (List.filter f l).
Proof.
  induction l as [|a l IH]; simpl; [done|].
  destruct (g a) eqn:Hga, (f a) eqn:Hfa; simpl;
    rewrite ?Hga, ?Hfa, IH; done.
Qed.

Lemma filter_all {A} (f : A → bool) (l : list A) :
  List.filter f l = l ↔ forallb f l = true.
Proof.
  rewrite forallb_forall. split.
  - intros Heq a Ha. rewrite <- Heq in Ha. by apply List.filter_In in Ha as [_ ?].
  - induction l as [|a l IH]; simpl; [done|]. intros Hall.
    rewrite (Hall a) by (by left). f_equal. apply IH.
    intros b Hb. apply Hall. by right.
Qed.

(** X11. Filtering is idempotent: what [filter_data] returns can be
    filtered again with the same threshold, and comes back unchanged. *)
Theorem filter_data_idempotent (df out : DataFrame) (threshold : float) :
  filter_data df threshold = Returns out →
  filter_data out threshold = Returns out.
Proof.
  intros (Hcol & Hok & ->)%filter_data_returns_inv.
  rewrite filter_data_numeric; simpl; [|done|].
  - by rewrite filter_filter_same.
  - destruct df. by apply filter_keeps_ok.
Qed.

Lemma filter_data_idempotent_witness :
  ∃ out, filter_data sample_frame 10 = Returns out ∧
         filter_data out 10 = Returns out.
Proof.
  eexists. split; [by vm_compute|].
  apply (filter_data_idempotent sample_frame). by vm_compute.
Defined.

(** X12. Two thresholds can be applied in either order: filtering by the
    first and then by the second returns the frame that filtering by the
    second and then by the first returns. *)
Theorem filter_data_commutes (df a b : DataFrame) (t1 t2 : float) :
  filter_data df t1 = Returns a →
  filter_data df t2 = Returns b →
  ∃ c, filter_data a t2 = Returns c ∧ filter_data b t1 = Returns c.
Proof.
  intros (Hcol & Hok1 & ->)%filter_data_returns_inv
         (_ & Hok2 & ->)%filter_data_returns_inv.
  destruct df as [cols rows]. eexists. split.
  - rewrite filter_data_numeric; simpl;
      [reflexivity | done | by apply filter_keeps_ok].
  - rewrite filter_data_numeric; simpl;
      [by rewrite filter_filter_comm | done | by apply filter_keeps_ok].
Qed.

Lemma filter_data_commutes_witness :
  ∃ a b c,
    filter_data sample_frame 10 = Returns a ∧
    filter_data sample_frame 15 = Returns b ∧
    filter_data a 15 = Returns c ∧ filter_data b 10 = Returns c.
Proof.
  destruct (filter_data sample_frame 10) as [a|e] eqn:Ha;
    [|vm_compute in Ha; discriminate Ha].
  destruct (filter_data sample_frame 15) as [b|e] eqn:Hb;
    [|vm_compute in Hb; discriminate Hb].
  destruct (filter_data_commutes sample_frame a b 10 15 Ha Hb)
    as (c & Hac & Hbc).
  exists a, b, c. repeat split; [exact Hac | exact Hbc].
Defined.

Lemma above_is_number threshold r :
  above threshold r = true → is_number (entry "value" r) = true.
Proof. unfold above. by destruct (entry "value" r). Qed.

(** X13. [filter_data] returns the frame it was given exactly when the
    frame has a ['value'] column and every row is above the threshold;
    so a frame with the column and no rows comes back as it is. *)
Theorem filter_data_unchanged_iff (df : DataFrame) (threshold : float) :
  filter_data df threshold = Returns df ↔
  "value" ∈ df_columns df ∧ forallb (above threshold) (df_rows df) = true.
Proof.
  split.
  - intros (Hcol & _ & Heq)%filter_data_returns_inv. split; [done|].
    apply filter_all. destruct df as [cols rows]. simpl in *. congruence.
  - intros [Hcol Hall]. rewrite filter_data_numeric; [| done |].
    + apply filter_all in Hall. rewrite Hall. by destruct df.
    + right. unfold numeric_column. rewrite forallb_forall in *.
      intros r Hr. by apply (above_is_number threshold), Hall.
Qed.

(** ** Missing numbers *)

(** X14. A row whose entry under ['value'] is missing or is NaN is never
    among the rows [filter_data] returns, whatever the threshold. *)
Theorem filter_data_drops_missing
    (df out : DataFrame) (threshold : float) (r : row) :
  filter_data df threshold = Returns out →
  row_cells r !! "value" = None ∨
  row_cells r !! "value" = Some (CFloat PrimFloat.nan) →
  r ∉ df_rows out.
Proof.
  intros (_ & _ & ->)%filter_data_returns_inv Hmissing. simpl.
  rewrite list_elem_of_In, List.filter_In. intros [_ Habove].
  unfold above, entry in Habove.
  destruct Hmissing as [Hm|Hm]; rewrite Hm in Habove;
    by rewrite ltb_nan_r in Habove.
Qed.

Lemma filter_data_drops_missing_witness :
  ∃ out, filter_data sample_frame 10 = Returns out ∧
         Row 2 {[ "name" := CText "c" ]} ∉ df_rows out.
Proof.
  destruct (filter_data sample_frame 10) as [out|e] eqn:Hout;
    [|vm_compute in Hout; discriminate Hout].
  exists out. split; [reflexivity|].
  apply (filter_data_drops_missing sample_frame out 10); [exact Hout|].
  left. reflexivity.
Defined.

(** X15. With NaN for the threshold no entry is greater: [filter_data]
    returns a frame with the same columns and no rows. *)
Theorem filter_data_nan_threshold (df out : DataFrame) :
  filter_data df PrimFloat.nan = Returns out →
  out = Frame (df_columns df) [].
Proof.
  intros (_ & _ & ->)%filter_data_returns_inv. f_equal.
  induction (df_rows df) as [|r rows IH]; simpl; [done|].
  by rewrite IH, above_nan.
Qed.

Lemma filter_data_nan_threshold_witness :
  filter_data sample_frame PrimFloat.nan =
  Returns (Frame (df_columns sample_frame) []).
Proof.
  destruct (filter_data sample_frame PrimFloat.nan) as [out|e] eqn:Hout;
    [|vm_compute in Hout; discriminate Hout].
  f_equal. by apply (filter_data_nan_threshold sample_frame out).
Defined.

(** ** Splitting a frame *)

Lemma drop_column_entry df key X other :
  drop_column df key = Returns X → other ≠ key →
  entry other <$> df_rows X = entry other <$> df_rows df.
Proof.
  unfold drop_column. case_decide; [|done]. intros [= <-] Hne. simpl.
  rewrite <- list_fmap_compose. apply list_fmap_ext. intros _ r _.
  unfold entry; simpl. by rewrite lookup_delete_ne.
Qed.

(** X16. Without the target column there is nothing to split:
    [split_data] raises [KeyError], and the split of scikit-learn is not
    reached, whatever it would do. *)
Theorem split_data_missing_target {Split : Type}
    (train_test_split : DataFrame → list cell → outcome Split)
    (df : DataFrame) (target_column : string) :
  target_column ∉ df_columns df →
  split_data train_test_split df target_column = Raises KeyError.
Proof.
  intros Hcol. unfold split_data, drop_column.
  by rewrite decide_False by done.
Qed.

Lemma split_data_missing_target_witness :
  split_data (λ X y, Returns (X, y)) frame_without_value "value" =
  Raises KeyError.
Proof.
  apply (split_data_missing_target (λ X y, Returns (X, y))).
  vm_compute. discriminate.
Defined.

(** X17. With the target column present, [split_data] hands the split a
    frame of features and a target that divide the frame between them:
    the features have every column but the target, with its entries as
    they were and as many rows as the target has entries, and the target
    is no longer a column of the features. *)
Theorem split_data_divides_frame {Split : Type}
    (train_test_split : DataFrame → list cell → outcome Split)
    (df : DataFrame) (target_column : string) :
  target_column ∈ df_columns df →
  ∃ X y,
    split_data train_test_split df target_column = train_test_split X y ∧
    getitem_column df target_column = Returns y ∧
    getitem_column X target_column = Raises KeyError ∧
    (∀ key, key ≠ target_column →
       getitem_column X key = getitem_column df key) ∧
    length (df_rows X) = length y ∧
    row_label <$> df_rows X = row_label <$> df_rows df.
Proof.
  intros Hcol.
  destruct (drop_column df target_column) as [X|e] eqn:HX;
    [|unfold drop_column in HX; by rewrite decide_True in HX by done].
  exists X, (entry target_column <$> df_rows df).
  assert (Hy : getitem_column df target_column =
               Returns (entry target_column <$> df_rows df)).
  { unfold getitem_column. by rewrite decide_True by done. }
  assert (Hcols : df_columns X = df_columns df ∖ {[ target_column ]} ∧
                  df_rows X = (λ r, Row (row_label r)
                                 (delete target_column (row_cells r)))
                              <$> df_rows df).
  { unfold drop_column in HX. rewrite decide_True in HX by done.
    by injection HX as <-. }
  destruct Hcols as [Hcols Hrows].
  repeat split.
  - unfold split_data. by rewrite HX, Hy.
  - done.
  - unfold getitem_column. rewrite decide_False; [done|].
    rewrite Hcols. intros [_ Hnot]%elem_of_difference.
    apply Hnot. by apply elem_of_singleton.
  - intros key Hne. unfold getitem_column.
    rewrite (drop_column_entry _ _ _ _ HX Hne), Hcols.
    destruct (decide (key ∈ df_columns df)) as [Hkey|Hkey].
    + rewrite decide_True; [done|].
      apply elem_of_difference. split; [done|]. by rewrite elem_of_singleton.
    + rewrite decide_False; [done|].
      by intros [? _]%elem_of_difference.
  - by rewrite Hrows, !length_fmap.
  - rewrite Hrows, <- list_fmap_compose. by apply list_fmap_ext.
Qed.

Lemma split_data_divides_frame_witness :
  ∃ X y,
    split_data (λ X y, Returns (X, y)) sample_frame "value" = Returns (X, y) ∧
    getitem_column X "value" = Raises KeyError ∧
    length (df_rows X) = length y.
Proof.
  destruct (split_data_divides_frame (λ X y, Returns (X, y))
              sample_frame "value") as (X & y & Hsplit & _ & Hgone & _ & Hlen & _).
  - vm_compute. reflexivity.
  - exists X, y. by repeat split.
Defined.
